(** * CommunicationManager: a shallow embedding and its properties

    The development follows
    [controllers/MainControllerInitializer/CommunicationManager.py].
    The manager sends, receives and orders the messages exchanged by the
    entities of a Webots simulation (robots, remotes).

    Modelling choices.
    - Python strings are [string]; a character is a code point below 256.
    - Python integers are [Z].  The interpreter's configurable limit on the
      number of digits of an integer/string conversion is not modelled.
    - A method of the manager is a computation in a state-and-exception
      monad over [World], the part of the robot, of its devices and of the
      simulation that the manager reads or writes.
    - [RobotUpInitializer] (the robot class, [Message] and the enumeration
      [MESSAGE_TYPE_PRIORITY]) is imported by the module but is not part of
      it: [Message] is the record of the five attributes the manager reads
      and passes to the constructor, and the two functions of that module
      the manager calls, [MESSAGE_TYPE_PRIORITY.priority] and
      [RobotUpInitializer.append], are the fields of the class [RobotUp],
      over which the development is parametric. *)

From Stdlib Require Import ZArith List String Ascii Bool Lia.
From Stdlib Require Import DecimalString DecimalPos DecimalZ.
Import ListNotations.

Local Open Scope string_scope.
Local Open Scope Z_scope.

(** ** Python built-ins used by the manager *)

Module Py.

(** [s.split(sep)] for a one-character separator: one field more than
    there are separators, and [[""]] for the empty string. *)
Fixpoint split (sep : ascii) (s : string) : list string :=
  match s with
  | EmptyString => [EmptyString]
  | String c s' =>
      if Ascii.eqb c sep then EmptyString :: split sep s'
      else match split sep s' with
           | f :: fs => String c f :: fs
           | [] => [String c EmptyString]
           end
  end.

(** [str(n)] for an integer, which is also what ["{}".format(n)] and
    [print(n)] write: decimal digits, a leading [-] for a negative. *)
Definition str_int (z : Z) : string := NilZero.string_of_int (Z.to_int z).

(** Whitespace as [int()] strips it, among the code points below 256:
    tab to carriage return, space, next line and no-break space. *)
Definition is_space (c : ascii) : bool :=
  let n := nat_of_ascii c in
  (((9 <=? n) && (n <=? 13)) || (n =? 32) || (n =? 133) || (n =? 160))%nat.

Fixpoint lstrip (s : string) : string :=
  match s with
  | EmptyString => EmptyString
  | String c s' => if is_space c then lstrip s' else s
  end.

Fixpoint rstrip (s : string) : string :=
  match s with
  | EmptyString => EmptyString
  | String c s' =>
      match rstrip s' with
      | EmptyString => if is_space c then EmptyString
                       else String c EmptyString
      | r => String c r
      end
  end.

Definition digit_value (c : ascii) : option Z :=
  let n := nat_of_ascii c in
  if ((48 <=? n) && (n <=? 57))%nat then Some (Z.of_nat n - 48) else None.

(** The digits of a base-10 literal, read left to right.  An underscore
    may separate two digits; [after_digit] tells whether the previous
    character was a digit. *)
Fixpoint digits (after_digit : bool) (acc : Z) (s : string) : option Z :=
  match s with
  | EmptyString => if after_digit then Some acc else None
  | String c s' =>
      match digit_value c with
      | Some d => digits true (10 * acc + d) s'
      | None =>
          if Ascii.eqb c "_" && after_digit
          then match s' with
               | EmptyString => None
               | String c' _ =>
                   match digit_value c' with
                   | Some _ => digits false acc s'
                   | None => None
                   end
               end
          else None
      end
  end.

(** [int(s)] for a string: [None] stands for the [ValueError] that
    [int] raises on a string that is not a base-10 integer literal. *)
Definition int (s : string) : option Z :=
  match rstrip (lstrip s) with
  | String "+" r => digits false 0 r
  | String "-" r => option_map Z.opp (digits false 0 r)
  | r => digits false 0 r
  end.

(** [s.replace(old, "")]: every occurrence of [old], found from the left
    and without overlap, is removed.  [skip] counts the characters of
    the occurrence being removed that are still to be dropped. *)
Fixpoint remove_from (old : string) (skip : nat) (s : string) : string :=
  match s with
  | EmptyString => EmptyString
  | String c s' =>
      match skip with
      | S k => remove_from old k s'
      | O => if String.prefix old s
             then remove_from old (Nat.pred (String.length old)) s'
             else String c (remove_from old 0 s')
      end
  end.

Definition remove (old s : string) : string :=
  match old with
  | EmptyString => s
  | _ => remove_from old 0 s
  end.

(** [print(a, b, ...)]: the arguments separated by one space. *)
Definition print_line (args : list string) : string :=
  String.concat " " args.

End Py.

(** ** Messages and the world of one manager *)

(** [Message(id_sender, message_type, send_counter, payload, recipient)].
    The manager only ever observes a message type through [str] (in
    [format] and in [is_the_message_prioritary]), so a type is kept as
    that rendering; the type of a received message is the field of the
    frame, a string. *)
Record Message := mkMessage {
  id_sender : string;
  message_type : string;
  send_counter : Z;
  payload : string;
  recipient : string
}.

(** What the manager can reach through [self.robot], [self.emitter] and
    [self.receiver], with the simulation behind them.
    - [name] is [robot.getName()], [known_robots] and [list_messages] are
      the attributes of the robot;
    - [time_step] is [self.time_step], that [__init__] reads from
      [robot.getBasicTimeStep()];
    - [steps] counts the calls of [robot.step] and [sim_time] adds up
      their durations, in milliseconds;
    - [incoming] is the traffic still to come: its [k]-th batch holds the
      packets that the [k]-th next call of [robot.step] puts in the
      receiver's queue;
    - [emitted] logs the packets given to [emitter.send], oldest first;
    - [console] logs the lines written by [print], oldest first. *)
Record World := mkWorld {
  name : string;
  known_robots : list string;
  list_messages : list Message;
  time_step : Z;
  steps : nat;
  sim_time : Z;
  incoming : list (list string);
  rx_queue : list string;
  emitted : list string;
  console : list string
}.

Definition set_list_messages (l : list Message) (w : World) : World :=
  mkWorld (name w) (known_robots w) l (time_step w) (steps w) (sim_time w)
          (incoming w) (rx_queue w) (emitted w) (console w).

Definition set_rx_queue (q : list string) (w : World) : World :=
  mkWorld (name w) (known_robots w) (list_messages w) (time_step w) (steps w)
          (sim_time w) (incoming w) q (emitted w) (console w).

Definition set_emitted (e : list string) (w : World) : World :=
  mkWorld (name w) (known_robots w) (list_messages w) (time_step w) (steps w)
          (sim_time w) (incoming w) (rx_queue w) e (console w).

Definition set_console (c : list string) (w : World) : World :=
  mkWorld (name w) (known_robots w) (list_messages w) (time_step w) (steps w)
          (sim_time w) (incoming w) (rx_queue w) (emitted w) c.

(** ** Computations: state and exceptions *)

Inductive exn := ValueError (msg : string).

(** [OutOfFuel] is not an outcome of the program: it marks a [while] loop
    of the model that was given too few iterations to finish. *)
Inductive outcome (A : Type) :=
| Returned (a : A)
| Raised (e : exn)
| OutOfFuel.
Arguments Returned {A} a.
Arguments Raised {A} e.
Arguments OutOfFuel {A}.

(** A raised exception keeps the world as it was when it was raised. *)
Definition M (A : Type) : Type := World -> outcome A * World.

Definition ret {A} (a : A) : M A := fun w => (Returned a, w).

Definition bind {A B} (c : M A) (k : A -> M B) : M B :=
  fun w => match c w with
           | (Returned a, w') => k a w'
           | (Raised e, w') => (Raised e, w')
           | (OutOfFuel, w') => (OutOfFuel, w')
           end.

Definition raise {A} (e : exn) : M A := fun w => (Raised e, w).

Definition gets {A} (f : World -> A) : M A := fun w => (Returned (f w), w).

Definition modify (f : World -> World) : M unit :=
  fun w => (Returned tt, f w).

(** [try: body  except ValueError: handler] *)
Definition try_except {A} (body : M A) (handler : M A) : M A :=
  fun w => match body w with
           | (Returned a, w') => (Returned a, w')
           | (Raised (ValueError _), w') => handler w'
           | (OutOfFuel, w') => (OutOfFuel, w')
           end.

Notation "x <- c ;; k" := (bind c (fun x => k))
  (at level 61, c at next level, right associativity).
Notation "c ;; k" := (bind c (fun _ => k))
  (at level 61, right associativity).

(** [for _ in range(n): body] *)
Fixpoint for_range (n : nat) (body : M unit) : M unit :=
  match n with
  | O => ret tt
  | S k => body ;; for_range k body
  end.

(** [while cond: body], run for at most [fuel] iterations. *)
Fixpoint while (fuel : nat) (cond : M bool) (body : M unit) : M unit :=
  match fuel with
  | O => fun w => (OutOfFuel, w)
  | S k => b <- cond ;; if b : bool then body ;; while k cond body else ret tt
  end.


(** ** The devices and the robot *)

(** [robot.getName()] *)
Definition getName : M string := gets name.

(** [robot.step(duration)]: the simulation runs for [duration]
    milliseconds, during which the next batch of traffic reaches the
    receiver. *)
Definition step (duration : Z) : M unit :=
  modify (fun w =>
    mkWorld (name w) (known_robots w) (list_messages w) (time_step w)
            (S (steps w)) (sim_time w + duration)
            (tl (incoming w))
            (rx_queue w ++ hd [] (incoming w))
            (emitted w) (console w)).

(** [emitter.send(packet)] *)
Definition emitter_send (packet : string) : M unit :=
  modify (fun w => set_emitted (emitted w ++ [packet]) w).

(** [receiver.getQueueLength()] *)
Definition getQueueLength : M nat := gets (fun w => List.length (rx_queue w)).

(** [receiver.getString()]: the packet at the head of the queue.  The
    manager reads the head only while the queue holds a packet. *)
Definition getString : M string := gets (fun w => hd "" (rx_queue w)).

(** [receiver.nextPacket()]: the head of the queue is deleted. *)
Definition nextPacket : M unit :=
  modify (fun w => set_rx_queue (tl (rx_queue w)) w).

(** [print(...)] *)
Definition print (args : list string) : M unit :=
  modify (fun w => set_console (console w ++ [Py.print_line args]) w).

(** ** The manager *)

(** What the manager calls in [RobotUpInitializer]:
    - [MESSAGE_TYPE_PRIORITY.priority], from the rendering of a message
      type to its rank;
    - [RobotUpInitializer.append]: [robot_append msg l] is the robot's list
      of messages once [msg] is added to the list [l] (the robot keeps its
      list ordered by priority). *)
Class RobotUp := {
  priority : string -> Z;
  robot_append : Message -> list Message -> list Message
}.

Section Manager.

Context {robot_up : RobotUp}.

Definition append (msg : Message) : M unit :=
  modify (fun w => set_list_messages (robot_append msg (list_messages w)) w).

(** [self.max_send_counter], set by [__init__] and never assigned again. *)
Definition max_send_counter : Z := 5.




(** The truth value of a string: it is not empty. *)
Definition truthy (s : string) : bool :=
  match s with EmptyString => false | _ => true end.

(** The body of the [try] of [receive_message].  The text of the two
    built-in errors (of the unpacking and of [int]) is abridged: the
    handler of [receive_message] catches them and raises its own. *)
Definition consider (incoming_msg : string) : M unit :=
  if truthy incoming_msg then
    match Py.split ";" incoming_msg with
    | [id_sender; message_type; send_counter; payload; recipient] =>
        match Py.int send_counter with
        | Some send_counter =>
            me <- getName ;;
            if (recipient =? "")%string
               || ((recipient =? me)%string
                   && (send_counter <? max_send_counter))
            then
              let print_message_type :=
                Py.remove "MESSAGE_TYPE_PRIORITY." message_type in
              print [me; " : Receive : "; id_sender; ";";
                     print_message_type; ";"; Py.str_int send_counter; ";";
                     payload; ";"; recipient] ;;
              append (mkMessage id_sender message_type send_counter
                                payload recipient)
            else ret tt
        | None => raise (ValueError "invalid literal for int() with base 10")
        end
    | _ => raise (ValueError "wrong number of values to unpack (expected 5)")
    end
  else ret tt.

Definition invalid_format (incoming_msg : string) : exn :=
  ValueError ("Invalid message format: '" ++ incoming_msg ++ "'").

(** One iteration of the loop of [receive_message]. *)
Definition receive_one : M unit :=
  incoming_msg <- getString ;;
  nextPacket ;;
  try_except (consider incoming_msg) (raise (invalid_format incoming_msg)).

Definition receive_message : M unit :=
  ts <- gets time_step ;;
  step ts ;;
  n <- getQueueLength ;;
  for_range n receive_one.

Definition is_the_message_prioritary (msg : Message) (current_task : string)
  : bool :=
  priority (message_type msg) >? priority current_task.

Definition clear_messages (fuel : nat) : M unit :=
  while fuel (n <- getQueueLength ;; ret (0 <? n)%nat) nextPacket ;;
  modify (set_list_messages []) ;;
  me <- getName ;;
  print [me; " : All messages cleared"].

(** *** What one call of [receive_message] does, frame by frame

    The definitions below are not code of the manager: they name the parts
    of a run of [receive_message] that the properties speak about, and each
    is tied to the code by a lemma ([consider_parsed], [receive_one_taken],
    [for_range_prefix] and the like). *)

(** The message that [consider] builds from a frame: the five fields of the
    split, the third one read by [int]. *)
Definition parse_frame (frame : string) : option Message :=
  match Py.split ";" frame with
  | [f1; f2; f3; f4; f5] =>
      match Py.int f3 with
      | Some n => Some (mkMessage f1 f2 n f4 f5)
      | None => None
      end
  | _ => None
  end.

(** The world once [consider] has printed and appended an accepted
    message. *)
Definition deliver (msg : Message) (w : World) : World :=
  set_list_messages (robot_append msg (list_messages w))
    (set_console
       (console w ++
        [Py.print_line
           [name w; " : Receive : "; id_sender msg; ";";
            Py.remove "MESSAGE_TYPE_PRIORITY." (message_type msg); ";";
            Py.str_int (send_counter msg); ";"; payload msg; ";";
            recipient msg]]) w).

(** The test that guards the delivery in [consider]. *)
Definition considered (me : string) (msg : Message) : bool :=
  (recipient msg =? "")%string
  || ((recipient msg =? me)%string && (send_counter msg <? max_send_counter)).

(** A frame that [consider] handles without an error: an empty one, or one
    that parses. *)
Definition well_formed (frame : string) : bool :=
  match frame with
  | EmptyString => true
  | _ => match parse_frame frame with Some _ => true | None => false end
  end.

(** The effect of a well-formed frame once it is dequeued. *)
Definition take_in (w : World) (frame : string) : World :=
  match frame with
  | EmptyString => w
  | _ => match parse_frame frame with
         | Some msg => if considered (name w) msg then deliver msg w else w
         | None => w
         end
  end.

Definition absorb (frames : list string) (w : World) : World :=
  fold_left take_in frames w.

(** The messages that the frames of a batch hand to [robot.append], in the
    order of the batch. *)
Fixpoint accepted_messages (me : string) (frames : list string)
  : list Message :=
  match frames with
  | [] => []
  | frame :: rest =>
      match frame with
      | EmptyString => accepted_messages me rest
      | _ => match parse_frame frame with
             | Some msg => if considered me msg
                           then msg :: accepted_messages me rest
                           else accepted_messages me rest
             | None => accepted_messages me rest
             end
      end
  end.

End Manager.

(** The world after the tick that opens [receive_message] and closes
    [send_message]. *)
Definition after_step (w : World) : World :=
  mkWorld (name w) (known_robots w) (list_messages w) (time_step w)
          (S (steps w)) (sim_time w + time_step w)
          (tl (incoming w))
          (rx_queue w ++ hd [] (incoming w))
          (emitted w) (console w).

(** The frames in the queue when [receive_message] reads its length. *)
Definition snapshot (w : World) : list string :=
  (rx_queue w ++ hd [] (incoming w))%list.

(** The world after [clear_messages]. *)
Definition cleared (w : World) : World :=
  set_console (console w ++ [Py.print_line [name w; " : All messages cleared"]])
    (set_list_messages [] (set_rx_queue [] w)).




(** The value of a decimal numeral read from the left, after [acc]. *)
Fixpoint horner (acc : Z) (d : Decimal.uint) : Z :=
  match d with
  | Decimal.Nil => acc
  | Decimal.D0 l => horner (10 * acc + 0) l
  | Decimal.D1 l => horner (10 * acc + 1) l
  | Decimal.D2 l => horner (10 * acc + 2) l
  | Decimal.D3 l => horner (10 * acc + 3) l
  | Decimal.D4 l => horner (10 * acc + 4) l
  | Decimal.D5 l => horner (10 * acc + 5) l
  | Decimal.D6 l => horner (10 * acc + 6) l
  | Decimal.D7 l => horner (10 * acc + 7) l
  | Decimal.D8 l => horner (10 * acc + 8) l
  | Decimal.D9 l => horner (10 * acc + 9) l
  end.

(** *** Instances used by the examples *)

(** A ranking of three message types. *)
Definition rank3 (t : string) : Z :=
  if (t =? "MESSAGE_TYPE_PRIORITY.STOP")%string then 3
  else if (t =? "MESSAGE_TYPE_PRIORITY.REPORT")%string then 2
  else 1.

(** A robot that keeps its messages in the order of their arrival. *)
Definition arrival_order : RobotUp :=
  {| priority := rank3;
     robot_append := fun msg l => (l ++ [msg])%list |}.

(** Robot [R], at rest, about to receive the batch [batch]. *)
Definition robot_R (batch : list string) : World :=
  mkWorld "R" ["A"; "B"] [] 32 0 0 [batch] [] [] [].




(** ** Facts about the built-ins *)

Module PyFacts.

Example split_three : Py.split ";" "a;;c" = ["a"; ""; "c"].
Proof. reflexivity. Qed.

Example split_empty : Py.split ";" "" = [""].
Proof. reflexivity. Qed.

Example int_literals :
  Py.int " +1_0 " = Some 10 /\ Py.int "-007" = Some (-7)
  /\ Py.int "1__0" = None /\ Py.int "5_" = None /\ Py.int "- 5" = None
  /\ Py.int "" = None /\ Py.int "notanumber" = None.
Proof. repeat split. Qed.

Example str_int_values :
  Py.str_int 0 = "0" /\ Py.str_int 1000 = "1000" /\ Py.str_int (-12) = "-12".
Proof. repeat split. Qed.

Example remove_occurrences :
  Py.remove "MESSAGE_TYPE_PRIORITY." "MESSAGE_TYPE_PRIORITY.STOP" = "STOP"
  /\ Py.remove "aba" "ababa" = "ba".
Proof. split; reflexivity. Qed.










Lemma horner_of_uint_acc (d : Decimal.uint) :
  forall (z : Z) (acc : positive),
    z = Zpos acc -> horner z d = Zpos (Pos.of_uint_acc d acc).
Proof.
  induction d; intros z acc ->; cbn [horner Pos.of_uint_acc];
    try reflexivity; apply IHd; lia.
Qed.

Lemma horner_pos (d : Decimal.uint) (acc : positive) :
  horner (Zpos acc) d = Zpos (Pos.of_uint_acc d acc).
Proof.
  now apply horner_of_uint_acc.
Qed.








(** [split] never returns the empty list. *)
Lemma split_nonempty (sep : ascii) (s : string) : Py.split sep s <> [].
Proof.
  induction s as [|c s IH]; simpl; [congruence|].
  destruct (Ascii.eqb c sep); [congruence|].
  destruct (Py.split sep s); congruence.
Qed.




End PyFacts.

(** ** Runs of the manager *)

Section Runs.

Context {robot_up : RobotUp}.

Ltac run := unfold getName, getString, nextPacket, getQueueLength, print,
  append, emitter_send, step, bind, ret, gets, modify, raise; cbn beta iota.

Ltac split5 fr :=
  destruct (Py.split ";" fr) as [|?f [|?f [|?f [|?f [|?f [|?f ?l]]]]]].

Lemma parse_frame_truthy (fr : string) (msg : Message) :
  parse_frame fr = Some msg -> truthy fr = true.
Proof.
  destruct fr; [discriminate | reflexivity].
Qed.

Lemma consider_empty (w : World) : consider "" w = (Returned tt, w).
Proof. reflexivity. Qed.

(** A frame that parses is delivered or dropped, by the test on its
    recipient and counter. *)
Lemma consider_parsed (fr : string) (msg : Message) (w : World) :
  parse_frame fr = Some msg ->
  consider fr w =
  (Returned tt, if considered (name w) msg then deliver msg w else w).
Proof.
  intros H. unfold consider.
  rewrite (parse_frame_truthy fr msg H).
  unfold parse_frame in H. split5 fr; try discriminate.
  destruct (Py.int f1) as [n|]; [|discriminate].
  injection H as <-. run. unfold considered. cbn [recipient send_counter].
  destruct ((f3 =? "")%string
            || (f3 =? name w)%string && (n <? max_send_counter));
    reflexivity.
Qed.

(** A non-empty frame that does not parse raises a [ValueError] in the
    [try], without any effect. *)
Lemma consider_malformed (fr : string) (w : World) :
  truthy fr = true -> parse_frame fr = None ->
  exists text, consider fr w = (Raised (ValueError text), w).
Proof.
  intros Ht H. unfold consider. rewrite Ht.
  unfold parse_frame in H. split5 fr; try (eexists; reflexivity).
  destruct (Py.int f1) as [n|]; [discriminate|].
  eexists; reflexivity.
Qed.

Lemma well_formed_cases (fr : string) :
  well_formed fr = true ->
  fr = EmptyString \/ exists msg, parse_frame fr = Some msg.
Proof.
  unfold well_formed. destruct fr as [|c s]; [now left|].
  destruct (parse_frame (String c s)) as [msg|]; [|discriminate].
  right. now exists msg.
Qed.

Lemma malformed_cases (fr : string) :
  well_formed fr = false -> truthy fr = true /\ parse_frame fr = None.
Proof.
  unfold well_formed. destruct fr as [|c s]; [discriminate|].
  destruct (parse_frame (String c s)); [discriminate|]. now split.
Qed.

Lemma take_in_parsed (fr : string) (msg : Message) (w : World) :
  parse_frame fr = Some msg ->
  take_in w fr = if considered (name w) msg then deliver msg w else w.
Proof.
  intros H. unfold take_in. rewrite H.
  destruct fr; [discriminate | reflexivity].
Qed.

(** One iteration on a well-formed head: the frame leaves the queue and
    is taken in. *)
Lemma receive_one_taken (fr : string) (q : list string) (w : World) :
  rx_queue w = fr :: q -> well_formed fr = true ->
  receive_one w = (Returned tt, take_in (set_rx_queue q w) fr).
Proof.
  intros Hq Hwf. unfold receive_one, try_except. run.
  rewrite Hq. cbn [hd tl].
  destruct (well_formed_cases fr Hwf) as [-> | [msg Hm]].
  - reflexivity.
  - rewrite (consider_parsed fr msg _ Hm), (take_in_parsed fr msg _ Hm).
    reflexivity.
Qed.

(** One iteration on a malformed head: the frame leaves the queue and the
    error that names it is raised. *)
Lemma receive_one_malformed (fr : string) (q : list string) (w : World) :
  rx_queue w = fr :: q -> well_formed fr = false ->
  receive_one w = (Raised (invalid_format fr), set_rx_queue q w).
Proof.
  intros Hq Hwf. unfold receive_one, try_except. run.
  rewrite Hq. cbn [hd tl].
  destruct (malformed_cases fr Hwf) as [Ht Hp].
  destruct (consider_malformed fr (set_rx_queue q w) Ht Hp) as [text ->].
  reflexivity.
Qed.

Lemma take_in_set_rx_queue (q : list string) (w : World) (fr : string) :
  set_rx_queue q (take_in w fr) = take_in (set_rx_queue q w) fr.
Proof.
  unfold take_in. destruct fr as [|c s]; [reflexivity|].
  destruct (parse_frame (String c s)) as [msg|]; [|reflexivity].
  cbn [name set_rx_queue]. destruct (considered (name w) msg); reflexivity.
Qed.

Lemma absorb_set_rx_queue (q : list string) (frames : list string) :
  forall w, set_rx_queue q (absorb frames w) = absorb frames (set_rx_queue q w).
Proof.
  induction frames as [|fr frames IH]; intros w; [reflexivity|].
  cbn [absorb fold_left]. fold (absorb frames (take_in w fr)).
  rewrite IH, take_in_set_rx_queue. reflexivity.
Qed.

Lemma rx_queue_take_in (w : World) (fr : string) :
  rx_queue (take_in w fr) = rx_queue w.
Proof.
  unfold take_in. destruct fr as [|c s]; [reflexivity|].
  destruct (parse_frame (String c s)) as [msg|]; [|reflexivity].
  destruct (considered (name w) msg); reflexivity.
Qed.

Lemma set_rx_queue_twice (q q' : list string) (w : World) :
  set_rx_queue q (set_rx_queue q' w) = set_rx_queue q w.
Proof. reflexivity. Qed.

Lemma set_rx_queue_same (w : World) : set_rx_queue (rx_queue w) w = w.
Proof. destruct w; reflexivity. Qed.

(** The loop over a prefix of well-formed frames: they are taken in, in
    the order of the queue, and the loop goes on with what follows. *)
Lemma for_range_prefix (pre : list string) :
  forall (rest : list string) (k : nat) (w : World),
    forallb well_formed pre = true ->
    rx_queue w = (pre ++ rest)%list ->
    for_range (List.length pre + k) receive_one w =
    for_range k receive_one (absorb pre (set_rx_queue rest w)).
Proof.
  induction pre as [|fr pre IH]; intros rest k w Hwf Hq.
  - cbn [List.length Nat.add absorb fold_left].
    simpl in Hq. rewrite <- Hq, set_rx_queue_same. reflexivity.
  - cbn [forallb] in Hwf. apply andb_true_iff in Hwf.
    destruct Hwf as [Hfr Hpre].
    cbn [List.length Nat.add for_range]. unfold bind at 1.
    rewrite (receive_one_taken fr (pre ++ rest) w Hq Hfr).
    rewrite (IH rest k _ Hpre)
      by (rewrite rx_queue_take_in; reflexivity).
    rewrite take_in_set_rx_queue, set_rx_queue_twice. reflexivity.
Qed.

Lemma receive_message_unfold (w : World) :
  receive_message w =
  for_range (List.length (snapshot w)) receive_one (after_step w).
Proof. reflexivity. Qed.

(** A batch of well-formed frames is taken in whole. *)
Lemma receive_message_returns (w : World) :
  forallb well_formed (snapshot w) = true ->
  receive_message w =
  (Returned tt, absorb (snapshot w) (set_rx_queue [] (after_step w))).
Proof.
  intros Hwf. rewrite receive_message_unfold.
  rewrite (plus_n_O (List.length (snapshot w))).
  rewrite (for_range_prefix (snapshot w) [] 0 (after_step w) Hwf)
    by (unfold snapshot; cbn [rx_queue after_step];
        now rewrite app_nil_r).
  reflexivity.
Qed.

(** The first malformed frame of a batch stops the call. *)
Lemma receive_message_aborts (w : World) (pre post : list string)
  (bad : string) :
  snapshot w = (pre ++ bad :: post)%list ->
  forallb well_formed pre = true ->
  well_formed bad = false ->
  receive_message w =
  (Raised (invalid_format bad), absorb pre (set_rx_queue post (after_step w))).
Proof.
  intros Hq Hpre Hbad. rewrite receive_message_unfold, Hq.
  rewrite length_app. cbn [List.length].
  rewrite (for_range_prefix pre (bad :: post) _ (after_step w) Hpre)
    by (rewrite <- Hq; reflexivity).
  cbn [for_range]. unfold bind at 1.
  assert (Hhead : rx_queue (absorb pre (set_rx_queue (bad :: post)
                                          (after_step w))) = bad :: post).
  { rewrite <- absorb_set_rx_queue. reflexivity. }
  rewrite (receive_one_malformed bad post _ Hhead Hbad).
  rewrite absorb_set_rx_queue, set_rx_queue_twice. reflexivity.
Qed.

(** One iteration, whatever the queue holds. *)
Lemma receive_one_cases (w : World) :
  receive_one w =
  let fr := hd "" (rx_queue w) in
  let w1 := set_rx_queue (tl (rx_queue w)) w in
  if well_formed fr then (Returned tt, take_in w1 fr)
  else (Raised (invalid_format fr), w1).
Proof.
  destruct (rx_queue w) as [|fr q] eqn:Hq; cbn [hd tl]; cbv zeta.
  - unfold receive_one, try_except. run. rewrite Hq. reflexivity.
  - destruct (well_formed fr) eqn:Hwf.
    + now apply receive_one_taken.
    + now apply receive_one_malformed.
Qed.

(** *** What the loop leaves alone *)

Lemma take_in_frame (w : World) (fr : string) :
  name (take_in w fr) = name w /\ steps (take_in w fr) = steps w
  /\ sim_time (take_in w fr) = sim_time w
  /\ incoming (take_in w fr) = incoming w
  /\ emitted (take_in w fr) = emitted w
  /\ time_step (take_in w fr) = time_step w
  /\ known_robots (take_in w fr) = known_robots w.
Proof.
  unfold take_in. destruct fr as [|c s]; [now repeat split|].
  destruct (parse_frame (String c s)) as [msg|]; [|now repeat split].
  destruct (considered (name w) msg); now repeat split.
Qed.

Lemma absorb_frame (frames : list string) :
  forall w,
    name (absorb frames w) = name w /\ steps (absorb frames w) = steps w
    /\ sim_time (absorb frames w) = sim_time w
    /\ incoming (absorb frames w) = incoming w
    /\ emitted (absorb frames w) = emitted w
    /\ time_step (absorb frames w) = time_step w
    /\ known_robots (absorb frames w) = known_robots w
    /\ rx_queue (absorb frames w) = rx_queue w.
Proof.
  induction frames as [|fr frames IH]; intros w; [now repeat split|].
  cbn [absorb fold_left]. fold (absorb frames (take_in w fr)).
  destruct (IH (take_in w fr)) as (H1 & H2 & H3 & H4 & H5 & H6 & H7 & H8).
  destruct (take_in_frame w fr) as (K1 & K2 & K3 & K4 & K5 & K6 & K7).
  rewrite H1, H2, H3, H4, H5, H6, H7, H8, rx_queue_take_in.
  now repeat split.
Qed.

(** The list of messages after a batch: [robot.append] called on the
    accepted messages, in the order of the batch. *)
Lemma list_messages_absorb (frames : list string) :
  forall w,
    list_messages (absorb frames w) =
    fold_left (fun l msg => robot_append msg l)
              (accepted_messages (name w) frames) (list_messages w).
Proof.
  induction frames as [|fr frames IH]; intros w; [reflexivity|].
  cbn [absorb fold_left]. fold (absorb frames (take_in w fr)).
  rewrite IH. destruct (take_in_frame w fr) as (-> & _).
  unfold take_in. cbn [accepted_messages].
  destruct fr as [|c s]; [reflexivity|].
  destruct (parse_frame (String c s)) as [msg|]; [|reflexivity].
  destruct (considered (name w) msg); reflexivity.
Qed.

(** An empty frame in a batch changes nothing. *)
Lemma absorb_skips_empty (q1 q2 : list string) (w : World) :
  absorb (q1 ++ "" :: q2) w = absorb (q1 ++ q2) w.
Proof.
  unfold absorb. rewrite !fold_left_app. reflexivity.
Qed.


Lemma skipn_tl {A} (k : nat) (l : list A) :
  skipn (S k) l = skipn k (tl l).
Proof.
  destruct l as [|x l]; [now destruct k | reflexivity].
Qed.

(** The loop dequeues the frames it reaches, one for each iteration it
    starts; it starts them all when it returns. *)
Lemma for_range_dequeues (n : nat) :
  forall w,
    exists k : nat,
      (k <= n)%nat
      /\ rx_queue (snd (for_range n receive_one w)) = skipn k (rx_queue w)
      /\ (fst (for_range n receive_one w) = Returned tt -> k = n).
Proof.
  induction n as [|n IH]; intros w.
  - exists 0%nat. now repeat split.
  - cbn [for_range]. unfold bind. rewrite receive_one_cases. cbv zeta.
    destruct (well_formed (hd "" (rx_queue w))).
    + destruct (IH (take_in (set_rx_queue (tl (rx_queue w)) w)
                            (hd "" (rx_queue w)))) as (k & Hk & Hq & Hret).
      exists (S k). split; [lia | split].
      * rewrite Hq, rx_queue_take_in, skipn_tl. reflexivity.
      * intros H. now rewrite (Hret H).
    + exists 1%nat. split; [lia | split].
      * rewrite skipn_tl. reflexivity.
      * cbn [fst]. discriminate.
Qed.

(** *** Sending *)




(** *** Clearing *)

Lemma while_drains (fuel : nat) :
  forall w,
    (List.length (rx_queue w) < fuel)%nat ->
    while fuel (n <- getQueueLength ;; ret (0 <? n)%nat) nextPacket w =
    (Returned tt, set_rx_queue [] w).
Proof.
  induction fuel as [|fuel IH]; intros w Hlen; [lia|].
  cbn [while]. run. destruct (rx_queue w) as [|fr q] eqn:Hq.
  - cbn. rewrite <- Hq, set_rx_queue_same. reflexivity.
  - cbn [List.length Nat.ltb Nat.leb tl]. rewrite ?Hq. cbn [tl].
    change (while fuel (n <- getQueueLength;; ret (0 <? n)%nat) nextPacket
              (set_rx_queue q w) = (Returned tt, set_rx_queue [] w)).
    rewrite IH by (cbn in *; lia). reflexivity.
Qed.

Lemma clear_messages_cleared (fuel : nat) (w : World) :
  (List.length (rx_queue w) < fuel)%nat ->
  clear_messages fuel w = (Returned tt, cleared w).
Proof.
  intros Hlen. unfold clear_messages. unfold bind at 1.
  rewrite (while_drains fuel w Hlen). reflexivity.
Qed.

End Runs.

(** ** Properties of the manager *)

Section Properties.

Context {robot_up : RobotUp}.


Lemma considered_iff (me : string) (msg : Message) :
  considered me msg = true <->
  recipient msg = "" \/ (recipient msg = me /\ send_counter msg < 5).
Proof.
  unfold considered, max_send_counter.
  rewrite orb_true_iff, andb_true_iff, !String.eqb_eq, Z.ltb_lt. reflexivity.
Qed.

(** A non-empty frame with the wrong number of fields, or with a counter
    that [int] refuses, is not well formed. *)
Lemma malformed_frame (fr : string) :
  fr <> "" ->
  List.length (Py.split ";" fr) <> 5%nat
  \/ (exists f3, nth_error (Py.split ";" fr) 2 = Some f3 /\ Py.int f3 = None) ->
  well_formed fr = false.
Proof.
  intros Hne H. destruct fr as [|c s]; [congruence|].
  unfold well_formed, parse_frame.
  destruct (Py.split ";" (String c s))
    as [|f1 [|f2 [|f3 [|f4 [|f5 [|f6 l]]]]]]; try reflexivity.
  destruct H as [H | (f & Hf & Hint)].
  - cbn in H. congruence.
  - cbn in Hf. injection Hf as ->. now rewrite Hint.
Qed.


(** C2. A non-empty frame of the batch that does not split into five
    fields, or whose counter is not an integer, makes [receive_message]
    raise the error that quotes the frame; the frames behind it stay in
    the queue and leave no trace in the list of messages nor on the
    console. *)
Theorem malformed_frame_aborts (w : World) (pre post : list string)
  (bad : string) :
  snapshot w = (pre ++ bad :: post)%list ->
  forallb well_formed pre = true ->
  bad <> "" ->
  List.length (Py.split ";" bad) <> 5%nat
  \/ (exists f3, nth_error (Py.split ";" bad) 2 = Some f3
                 /\ Py.int f3 = None) ->
  exists w',
    receive_message w =
      (Raised (ValueError ("Invalid message format: '" ++ bad ++ "'")), w')
    /\ rx_queue w' = post
    /\ list_messages w' = list_messages (absorb pre (after_step w))
    /\ console w' = console (absorb pre (after_step w)).
Proof.
  intros Hq Hpre Hne Hbad.
  exists (absorb pre (set_rx_queue post (after_step w))).
  split; [|split; [|split]].
  - apply receive_message_aborts; auto using malformed_frame.
  - now rewrite <- absorb_set_rx_queue.
  - now rewrite <- absorb_set_rx_queue.
  - now rewrite <- absorb_set_rx_queue.
Qed.




(** C6. [clear_messages] returns with an empty list of messages and an
    empty queue, whatever the queue held: the frames are dropped unread
    (nothing is raised, nothing is printed about them), and what the next
    [receive_message] does depends on them in no way: its batch is the
    traffic of its own tick. *)
Theorem clear_messages_discards (fuel : nat) (w : World) :
  (List.length (rx_queue w) < fuel)%nat ->
  clear_messages fuel w = (Returned tt, cleared w)
  /\ list_messages (cleared w) = []
  /\ rx_queue (cleared w) = []
  /\ console (cleared w) =
     (console w ++ [Py.print_line [name w; " : All messages cleared"]])%list
  /\ snapshot (cleared w) = hd [] (incoming w)
  /\ (forall (q : list string) (l : list Message),
        (List.length q < fuel)%nat ->
        receive_message
          (snd (clear_messages fuel (set_list_messages l (set_rx_queue q w))))
        = receive_message (snd (clear_messages fuel w)))
  /\ (hd [] (incoming w) = [] ->
      receive_message (cleared w) = (Returned tt, after_step (cleared w))
      /\ list_messages (after_step (cleared w)) = []).
Proof.
  intros Hlen.
  split; [now apply clear_messages_cleared|].
  do 4 (split; [reflexivity|]).
  split; [|intros H; split; [|reflexivity]].
  - intros q l Hq.
    rewrite (clear_messages_cleared fuel w Hlen).
    rewrite (clear_messages_cleared fuel
               (set_list_messages l (set_rx_queue q w)) Hq).
    reflexivity.
  - rewrite receive_message_unfold.
    change (snapshot (cleared w)) with (hd [] (incoming w)).
    rewrite H. reflexivity.
Qed.

(** C7. [is_the_message_prioritary] is a function of the message and of
    the current task alone; it holds exactly when the rank of the type of
    the message is strictly above the rank of the current task, so it
    fails when the two ranks are equal. *)
Theorem is_the_message_prioritary_strict (msg : Message)
  (current_task : string) :
  (is_the_message_prioritary msg current_task = true
   <-> priority current_task < priority (message_type msg))
  /\ (priority (message_type msg) = priority current_task ->
      is_the_message_prioritary msg current_task = false).
Proof.
  unfold is_the_message_prioritary. split.
  - rewrite Z.gtb_ltb, Z.ltb_lt. reflexivity.
  - intros ->. rewrite Z.gtb_ltb. apply Z.ltb_irrefl.
Qed.

(** C8. [receive_message] first lets one tick pass, then runs its loop
    once for each frame that the queue holds after that tick: it dequeues
    frames of that batch only, from the head, and all of them when it
    returns.  When no frame of the batch is malformed the call returns
    with the queue empty, the frames taken in one after the other in the
    order of the queue; an empty frame is dequeued and changes nothing
    else. *)
Theorem receive_message_drains (w : World) :
  receive_message w =
    for_range (List.length (snapshot w)) receive_one (after_step w)
  /\ steps (after_step w) = S (steps w)
  /\ sim_time (after_step w) = sim_time w + time_step w
  /\ rx_queue (after_step w) = snapshot w
  /\ (exists k : nat,
        (k <= List.length (snapshot w))%nat
        /\ rx_queue (snd (receive_message w)) = skipn k (snapshot w)
        /\ (fst (receive_message w) = Returned tt ->
            k = List.length (snapshot w)))
  /\ (forallb well_formed (snapshot w) = true ->
      receive_message w =
        (Returned tt,
         fold_left take_in (snapshot w) (set_rx_queue [] (after_step w)))
      /\ rx_queue (snd (receive_message w)) = []
      /\ incoming (snd (receive_message w)) = tl (incoming w))
  /\ (forall q1 q2 : list string,
        snapshot w = (q1 ++ "" :: q2)%list ->
        forallb well_formed (q1 ++ q2) = true ->
        receive_message w =
          (Returned tt,
           fold_left take_in (q1 ++ q2)%list
                     (set_rx_queue [] (after_step w)))).
Proof.
  do 4 (split; [reflexivity|]).
  split; [apply (for_range_dequeues _ (after_step w))|].
  split; [intros H; split; [|split]|].
  - now apply receive_message_returns.
  - rewrite (receive_message_returns w H). cbn [snd].
    now destruct (absorb_frame (snapshot w) (set_rx_queue [] (after_step w)))
      as (_ & _ & _ & _ & _ & _ & _ & ->).
  - rewrite (receive_message_returns w H). cbn [snd].
    now destruct (absorb_frame (snapshot w) (set_rx_queue [] (after_step w)))
      as (_ & _ & _ & -> & _).
  - intros q1 q2 Hq Hwf.
    assert (Hall : forallb well_formed (snapshot w) = true).
    { rewrite Hq. rewrite forallb_app in *. cbn [forallb well_formed].
      exact Hwf. }
    rewrite (receive_message_returns w Hall), Hq.
    now rewrite absorb_skips_empty.
Qed.

(** C9. When [receive_message] raises on a malformed frame, the robot's
    list holds what [robot.append] made of the messages accepted before
    that frame, the queue starts behind the frame, and the batch of the
    next call is what followed the frame with the traffic of the next
    tick. *)
Theorem abort_keeps_earlier_messages (w : World) (pre post : list string)
  (bad : string) :
  snapshot w = (pre ++ bad :: post)%list ->
  forallb well_formed pre = true ->
  well_formed bad = false ->
  let w' := snd (receive_message w) in
  fst (receive_message w) = Raised (invalid_format bad)
  /\ list_messages w' =
     fold_left (fun l msg => robot_append msg l)
               (accepted_messages (name w) pre) (list_messages w)
  /\ rx_queue w' = post
  /\ snapshot w' = (post ++ hd [] (tl (incoming w)))%list.
Proof.
  intros Hq Hpre Hbad w'. unfold w'.
  rewrite (receive_message_aborts w pre post bad Hq Hpre Hbad). cbn [fst snd].
  destruct (absorb_frame pre (set_rx_queue post (after_step w)))
    as (_ & _ & _ & Hin & _ & _ & _ & Hrx).
  split; [reflexivity | split; [|split]].
  - rewrite list_messages_absorb. reflexivity.
  - exact Hrx.
  - unfold snapshot. rewrite Hrx, Hin. reflexivity.
Qed.


End Properties.

(** ** Frames on the wire *)










Lemma accepted_messages_app (me : string) (q1 q2 : list string) :
  accepted_messages me (q1 ++ q2) =
  (accepted_messages me q1 ++ accepted_messages me q2)%list.
Proof.
  induction q1 as [|fr q1 IH]; [reflexivity|].
  cbn [accepted_messages List.app].
  destruct fr as [|c s]; [exact IH|].
  destruct (parse_frame (String c s)) as [msg|]; [|exact IH].
  destruct (considered me msg); [|exact IH].
  cbn [List.app]. now rewrite IH.
Qed.

Lemma accepted_messages_considered (me : string) (q : list string) :
  Forall (fun msg => considered me msg = true) (accepted_messages me q).
Proof.
  induction q as [|fr q IH]; [constructor|].
  cbn [accepted_messages].
  destruct fr as [|c s]; [exact IH|].
  destruct (parse_frame (String c s)) as [msg|]; [|exact IH].
  destruct (considered me msg) eqn:Hc; [|exact IH].
  now constructor.
Qed.

(** A batch is well formed, or has a first malformed frame. *)
Lemma first_malformed (q : list string) :
  forallb well_formed q = true
  \/ exists pre bad post,
       q = (pre ++ bad :: post)%list
       /\ forallb well_formed pre = true /\ well_formed bad = false.
Proof.
  induction q as [|fr q IH]; [now left|].
  destruct (well_formed fr) eqn:Hfr.
  - destruct IH as [IH | (pre & bad & post & -> & Hpre & Hbad)].
    + left. cbn [forallb]. now rewrite Hfr.
    + right. exists (fr :: pre), bad, post. cbn [forallb]. rewrite Hfr.
      now repeat split.
  - right. exists [], fr, q. now repeat split.
Qed.

(** ** How the operations compose *)

Section Composition.

Context {robot_up : RobotUp}.

Lemma console_take_in (w : World) (fr : string) :
  List.length (console (take_in w fr)) =
  (List.length (console w)
   + List.length (accepted_messages (name w) [fr]))%nat.
Proof.
  unfold take_in. cbn [accepted_messages].
  destruct fr as [|c s]; [cbn; lia|].
  destruct (parse_frame (String c s)) as [msg|]; [|cbn; lia].
  destruct (considered (name w) msg); [|cbn; lia].
  cbn [deliver console set_list_messages set_console].
  rewrite length_app. reflexivity.
Qed.

Lemma console_absorb (frames : list string) :
  forall w,
    List.length (console (absorb frames w)) =
    (List.length (console w)
     + List.length (accepted_messages (name w) frames))%nat.
Proof.
  induction frames as [|fr frames IH]; intros w; [cbn; lia|].
  cbn [absorb fold_left]. fold (absorb frames (take_in w fr)).
  rewrite IH, console_take_in.
  destruct (take_in_frame w fr) as (-> & _).
  change (fr :: frames) with ([fr] ++ frames)%list.
  rewrite (accepted_messages_app (name w) [fr] frames), length_app. lia.
Qed.

(** The loop leaves the emitter, the robot's name and peers, the manager's
    time step and the traffic to come as they are, however it ends. *)
Lemma for_range_keeps (n : nat) :
  forall w,
    let w' := snd (for_range n receive_one w) in
    emitted w' = emitted w /\ known_robots w' = known_robots w
    /\ name w' = name w /\ time_step w' = time_step w
    /\ incoming w' = incoming w.
Proof.
  induction n as [|n IH]; intros w; [now repeat split|].
  cbn [for_range]. unfold bind. rewrite receive_one_cases. cbv zeta.
  destruct (well_formed (hd "" (rx_queue w))); [|now repeat split].
  destruct (IH (take_in (set_rx_queue (tl (rx_queue w)) w)
                        (hd "" (rx_queue w)))) as (H1 & H2 & H3 & H4 & H5).
  destruct (take_in_frame (set_rx_queue (tl (rx_queue w)) w)
                          (hd "" (rx_queue w)))
    as (K1 & _ & _ & K4 & K5 & K6 & K7).
  cbv zeta in *. rewrite H1, H2, H3, H4, H5, K1, K4, K5, K6, K7.
  now repeat split.
Qed.


(** X1. A batch without malformed frame: the call returns, the robot's
    list is [robot.append] called on the accepted messages in the order of
    the batch, one line is printed for each of them, and each of them is
    a broadcast or is for this robot with a counter below 5. *)
Theorem receive_message_inbox (w : World) :
  forallb well_formed (snapshot w) = true ->
  let w' := snd (receive_message w) in
  let accepted := accepted_messages (name w) (snapshot w) in
  fst (receive_message w) = Returned tt
  /\ list_messages w' =
     fold_left (fun l msg => robot_append msg l) accepted (list_messages w)
  /\ List.length (console w') =
     (List.length (console w) + List.length accepted)%nat
  /\ Forall (fun msg => recipient msg = ""
                        \/ (recipient msg = name w /\ send_counter msg < 5))
            accepted.
Proof.
  intros Hwf. cbv zeta. rewrite (receive_message_returns w Hwf). cbn [fst snd].
  split; [reflexivity | split; [|split]].
  - now rewrite list_messages_absorb.
  - now rewrite console_absorb.
  - eapply Forall_impl; [|apply accepted_messages_considered].
    intros msg H. now apply considered_iff.
Qed.

(** X2. [receive_message] sends nothing and changes neither the robot's
    name nor its peers, whether it returns or raises; of the traffic to
    come it uses the batch of its own tick and no more. *)
Theorem receive_message_never_sends (w : World) :
  let w' := snd (receive_message w) in
  emitted w' = emitted w /\ known_robots w' = known_robots w
  /\ name w' = name w /\ time_step w' = time_step w
  /\ incoming w' = tl (incoming w).
Proof.
  cbv zeta. rewrite receive_message_unfold.
  destruct (for_range_keeps (List.length (snapshot w)) (after_step w))
    as (H1 & H2 & H3 & H4 & H5).
  cbv zeta in *. rewrite H1, H2, H3, H4, H5. now repeat split.
Qed.




(** X6. After a call stopped by a malformed frame, the frames that were
    behind it are still served: when they and the traffic of the next tick
    are well formed, the next call returns, and the robot's list is as if
    the bad frame had never been in the queue. *)
Theorem retry_after_abort (w : World) (pre post : list string)
  (bad : string) :
  snapshot w = (pre ++ bad :: post)%list ->
  forallb well_formed pre = true ->
  well_formed bad = false ->
  forallb well_formed (post ++ hd [] (tl (incoming w))) = true ->
  let w1 := snd (receive_message w) in
  let w2 := snd (receive_message w1) in
  fst (receive_message w1) = Returned tt
  /\ rx_queue w2 = []
  /\ list_messages w2 =
     fold_left (fun l msg => robot_append msg l)
       (accepted_messages (name w)
          (pre ++ post ++ hd [] (tl (incoming w))))
       (list_messages w).
Proof.
  intros Hq Hpre Hbad Hnext. cbv zeta.
  rewrite (receive_message_aborts w pre post bad Hq Hpre Hbad). cbn [snd].
  set (w1 := absorb pre (set_rx_queue post (after_step w))).
  destruct (absorb_frame pre (set_rx_queue post (after_step w)))
    as (Hname & _ & _ & Hin & _ & _ & _ & Hrx).
  fold w1 in Hname, Hin, Hrx.
  assert (Hsnap : snapshot w1 = (post ++ hd [] (tl (incoming w)))%list).
  { unfold snapshot. rewrite Hrx, Hin. reflexivity. }
  assert (Hwf : forallb well_formed (snapshot w1) = true)
    by now rewrite Hsnap.
  rewrite (receive_message_returns w1 Hwf). cbn [fst snd].
  split; [reflexivity | split].
  - now destruct (absorb_frame (snapshot w1) (set_rx_queue [] (after_step w1)))
      as (_ & _ & _ & _ & _ & _ & _ & ->).
  - rewrite list_messages_absorb, Hsnap.
    change (name (set_rx_queue [] (after_step w1))) with (name w1).
    change (list_messages (set_rx_queue [] (after_step w1)))
      with (list_messages w1).
    rewrite Hname. unfold w1. rewrite list_messages_absorb.
    change (name (set_rx_queue post (after_step w))) with (name w).
    change (list_messages (set_rx_queue post (after_step w)))
      with (list_messages w).
    now rewrite (accepted_messages_app (name w) pre), fold_left_app.
Qed.

(** X7. What the robot's list becomes does not depend on how the frames
    are spread over the ticks: two calls, one for each of two well-formed
    batches, leave the list that one call leaves for the two batches put
    end to end. *)
Theorem two_calls_as_one_batch (w v : World) :
  name v = name w ->
  list_messages v = list_messages w ->
  snapshot v = (snapshot w ++ hd [] (tl (incoming w)))%list ->
  forallb well_formed (snapshot v) = true ->
  let w2 := snd (receive_message (snd (receive_message w))) in
  fst (receive_message (snd (receive_message w))) = Returned tt
  /\ list_messages w2 = list_messages (snd (receive_message v))
  /\ steps w2 = S (S (steps w)).
Proof.
  intros Hname Hlist Hv Hwf. cbv zeta.
  assert (Hw : forallb well_formed (snapshot w) = true
               /\ forallb well_formed (hd [] (tl (incoming w))) = true).
  { rewrite Hv, forallb_app in Hwf. now apply andb_true_iff in Hwf. }
  destruct Hw as [Hw Hnext].
  rewrite (receive_message_returns w Hw). cbn [snd].
  set (w1 := absorb (snapshot w) (set_rx_queue [] (after_step w))).
  destruct (absorb_frame (snapshot w) (set_rx_queue [] (after_step w)))
    as (Hn1 & Hs1 & _ & Hin & _ & _ & _ & Hrx).
  fold w1 in Hn1, Hs1, Hin, Hrx.
  assert (Hsnap : snapshot w1 = hd [] (tl (incoming w))).
  { unfold snapshot. rewrite Hrx, Hin. reflexivity. }
  assert (Hwf1 : forallb well_formed (snapshot w1) = true)
    by now rewrite Hsnap.
  rewrite (receive_message_returns w1 Hwf1), (receive_message_returns v Hwf).
  cbn [fst snd]. split; [reflexivity | split].
  - rewrite !list_messages_absorb, Hsnap, Hv.
    change (name (set_rx_queue [] (after_step w1))) with (name w1).
    change (list_messages (set_rx_queue [] (after_step w1)))
      with (list_messages w1).
    change (name (set_rx_queue [] (after_step v))) with (name v).
    change (list_messages (set_rx_queue [] (after_step v)))
      with (list_messages v).
    rewrite Hn1, Hname, Hlist. unfold w1. rewrite list_messages_absorb.
    change (name (set_rx_queue [] (after_step w))) with (name w).
    change (list_messages (set_rx_queue [] (after_step w)))
      with (list_messages w).
    now rewrite (accepted_messages_app (name w) (snapshot w)), fold_left_app.
  - destruct (absorb_frame (snapshot w1) (set_rx_queue [] (after_step w1)))
      as (_ & -> & _).
    change (steps (set_rx_queue [] (after_step w1))) with (S (steps w1)).
    now rewrite Hs1.
Qed.

(** X8. [receive_message] ends in one of two ways: it returns, and then no
    frame of the batch was malformed; or it raises the error that quotes
    the first malformed frame of the batch, a frame that is not empty. *)
Theorem receive_message_outcomes (w : World) :
  (fst (receive_message w) = Returned tt
   /\ forallb well_formed (snapshot w) = true)
  \/ (exists pre bad post,
        snapshot w = (pre ++ bad :: post)%list
        /\ forallb well_formed pre = true
        /\ well_formed bad = false
        /\ bad <> ""
        /\ fst (receive_message w) =
           Raised (ValueError ("Invalid message format: '" ++ bad ++ "'"))).
Proof.
  destruct (first_malformed (snapshot w))
    as [Hwf | (pre & bad & post & Hq & Hpre & Hbad)].
  - left. now rewrite (receive_message_returns w Hwf).
  - right. exists pre, bad, post.
    rewrite (receive_message_aborts w pre post bad Hq Hpre Hbad).
    repeat split; auto. intros ->. discriminate.
Qed.

(** X9. Being prioritary is a strict order on the ranks: a message is
    never prioritary over a task of its own type, two messages are never
    prioritary over the type of each other, and a message prioritary over
    the type of a second one is prioritary over every task that the second
    one is prioritary over. *)
Theorem is_the_message_prioritary_order (m1 m2 : Message) (task : string) :
  is_the_message_prioritary m1 (message_type m1) = false
  /\ (is_the_message_prioritary m1 (message_type m2) = true ->
      is_the_message_prioritary m2 (message_type m1) = false)
  /\ (is_the_message_prioritary m1 (message_type m2) = true ->
      is_the_message_prioritary m2 task = true ->
      is_the_message_prioritary m1 task = true).
Proof.
  unfold is_the_message_prioritary. rewrite !Z.gtb_ltb.
  split; [apply Z.ltb_irrefl | split].
  - rewrite Z.ltb_lt, Z.ltb_ge. lia.
  - rewrite !Z.ltb_lt. lia.
Qed.

End Composition.

(** ** The properties at work

    Robot [R] keeps its messages in the order of their arrival
    ([arrival_order]); its receiver gets the batch given to [robot_R]
    during the tick of [receive_message]. *)

#[local] Existing Instance arrival_order.

(** A broadcast is accepted after a thousand transmissions. *)
Example broadcast_bypass :
  list_messages (snd (receive_message (robot_R ["S;T;1000;p;"]))) =
  [mkMessage "S" "T" 1000 "p" ""].
Proof. reflexivity. Qed.

(** A message for [R] is dropped at the fifth transmission, accepted at the
    fourth; a message for another robot is dropped. *)
Example hop_limit :
  list_messages
    (snd (receive_message
            (robot_R ["S;T;5;p;R"; "S;T;4;p;R"; "S;T;1;p;B"]))) =
  [mkMessage "S" "T" 4 "p" "R"].
Proof. reflexivity. Qed.

Example malformed_inputs :
  fst (receive_message (robot_R ["a;b;c"])) =
    Raised (ValueError "Invalid message format: 'a;b;c'")
  /\ fst (receive_message (robot_R ["a;b;notanumber;d;e"])) =
       Raised (ValueError "Invalid message format: 'a;b;notanumber;d;e'").
Proof. split; reflexivity. Qed.


Lemma malformed_frame_aborts_witness :
  exists w',
    receive_message (robot_R ["X;T;4;p;R"; "a;b;notanumber;d;e"; "Y;T;1;p;"]) =
      (Raised (ValueError "Invalid message format: 'a;b;notanumber;d;e'"), w')
    /\ rx_queue w' = ["Y;T;1;p;"]
    /\ list_messages w' =
       list_messages
         (absorb ["X;T;4;p;R"]
            (after_step
               (robot_R ["X;T;4;p;R"; "a;b;notanumber;d;e"; "Y;T;1;p;"])))
    /\ console w' =
       console
         (absorb ["X;T;4;p;R"]
            (after_step
               (robot_R ["X;T;4;p;R"; "a;b;notanumber;d;e"; "Y;T;1;p;"]))).
Proof.
  apply (@malformed_frame_aborts arrival_order
           (robot_R ["X;T;4;p;R"; "a;b;notanumber;d;e"; "Y;T;1;p;"])
           ["X;T;4;p;R"] ["Y;T;1;p;"] "a;b;notanumber;d;e").
  - reflexivity.
  - reflexivity.
  - discriminate.
  - right. exists "notanumber". split; reflexivity.
Defined.



Lemma clear_messages_discards_witness :
  clear_messages 3 (after_step (robot_R ["a;b;c"; "S;T;1;p;"])) =
    (Returned tt, cleared (after_step (robot_R ["a;b;c"; "S;T;1;p;"])))
  /\ list_messages (cleared (after_step (robot_R ["a;b;c"; "S;T;1;p;"]))) = []
  /\ rx_queue (cleared (after_step (robot_R ["a;b;c"; "S;T;1;p;"]))) = [].
Proof.
  destruct (@clear_messages_discards arrival_order 3
              (after_step (robot_R ["a;b;c"; "S;T;1;p;"]))
              ltac:(simpl; lia))
    as (H1 & H2 & H3 & _).
  split; [exact H1 | split; [exact H2 | exact H3]].
Defined.

Lemma is_the_message_prioritary_strict_witness :
  @is_the_message_prioritary arrival_order
    (mkMessage "S" "MESSAGE_TYPE_PRIORITY.REPORT" 1 "" "")
    "MESSAGE_TYPE_PRIORITY.REPORT" = false
  /\ @is_the_message_prioritary arrival_order
       (mkMessage "S" "MESSAGE_TYPE_PRIORITY.STOP" 1 "" "")
       "MESSAGE_TYPE_PRIORITY.REPORT" = true.
Proof.
  split.
  - apply (proj2 (@is_the_message_prioritary_strict arrival_order
                    (mkMessage "S" "MESSAGE_TYPE_PRIORITY.REPORT" 1 "" "")
                    "MESSAGE_TYPE_PRIORITY.REPORT")).
    reflexivity.
  - apply (proj1 (@is_the_message_prioritary_strict arrival_order
                    (mkMessage "S" "MESSAGE_TYPE_PRIORITY.STOP" 1 "" "")
                    "MESSAGE_TYPE_PRIORITY.REPORT")).
    vm_compute. reflexivity.
Defined.

Lemma receive_message_drains_witness :
  receive_message (robot_R ["S;T;4;p;R"; ""; "S;T;1;p;"]) =
    (Returned tt,
     fold_left take_in ["S;T;4;p;R"; "S;T;1;p;"]
       (set_rx_queue []
          (after_step (robot_R ["S;T;4;p;R"; ""; "S;T;1;p;"])))).
Proof.
  destruct (@receive_message_drains arrival_order
              (robot_R ["S;T;4;p;R"; ""; "S;T;1;p;"]))
    as (_ & _ & _ & _ & _ & _ & H).
  exact (H ["S;T;4;p;R"] ["S;T;1;p;"] eq_refl eq_refl).
Defined.

Lemma abort_keeps_earlier_messages_witness :
  fst (receive_message (robot_R ["S;T;4;p;R"; "a;b;c"; "S;T;1;p;"])) =
    Raised (invalid_format "a;b;c")
  /\ list_messages
       (snd (receive_message (robot_R ["S;T;4;p;R"; "a;b;c"; "S;T;1;p;"]))) =
     [mkMessage "S" "T" 4 "p" "R"]
  /\ rx_queue
       (snd (receive_message (robot_R ["S;T;4;p;R"; "a;b;c"; "S;T;1;p;"]))) =
     ["S;T;1;p;"].
Proof.
  destruct (@abort_keeps_earlier_messages arrival_order
              (robot_R ["S;T;4;p;R"; "a;b;c"; "S;T;1;p;"])
              ["S;T;4;p;R"] ["S;T;1;p;"] "a;b;c" eq_refl eq_refl eq_refl)
    as (H1 & H2 & H3 & _).
  split; [exact H1 | split; [exact H2 | exact H3]].
Defined.


(** A batch with an empty frame, a frame over the limit and a broadcast. *)
Lemma receive_message_inbox_witness :
  list_messages
    (snd (receive_message
            (robot_R ["S;T;4;p;R"; ""; "S;T;9;p;R"; "S;T;1000;p;"]))) =
  [mkMessage "S" "T" 4 "p" "R"; mkMessage "S" "T" 1000 "p" ""].
Proof.
  destruct (@receive_message_inbox arrival_order
              (robot_R ["S;T;4;p;R"; ""; "S;T;9;p;R"; "S;T;1000;p;"])
              eq_refl)
    as (_ & H & _).
  exact H.
Defined.



Lemma retry_after_abort_witness :
  list_messages
    (snd (receive_message
            (snd (receive_message
                    (robot_R ["S;T;1;p;"; "a;b;c"; "S;T;2;p;R"]))))) =
  [mkMessage "S" "T" 1 "p" ""; mkMessage "S" "T" 2 "p" "R"].
Proof.
  destruct (@retry_after_abort arrival_order
              (robot_R ["S;T;1;p;"; "a;b;c"; "S;T;2;p;R"])
              ["S;T;1;p;"] ["S;T;2;p;R"] "a;b;c"
              eq_refl eq_refl eq_refl eq_refl)
    as (_ & _ & H).
  exact H.
Defined.

Lemma two_calls_as_one_batch_witness :
  list_messages
    (snd (receive_message
            (snd (receive_message
                    (mkWorld "R" [] [] 32 0 0
                             [["S;T;1;p;"]; ["S;T;2;p;R"]] [] [] []))))) =
  list_messages
    (snd (receive_message (robot_R ["S;T;1;p;"; "S;T;2;p;R"]))).
Proof.
  destruct (@two_calls_as_one_batch arrival_order
              (mkWorld "R" [] [] 32 0 0
                       [["S;T;1;p;"]; ["S;T;2;p;R"]] [] [] [])
              (robot_R ["S;T;1;p;"; "S;T;2;p;R"])
              eq_refl eq_refl eq_refl eq_refl)
    as (_ & H & _).
  exact H.
Defined.

Lemma is_the_message_prioritary_order_witness :
  is_the_message_prioritary
    (mkMessage "S" "MESSAGE_TYPE_PRIORITY.REPORT" 1 "" "")
    "MESSAGE_TYPE_PRIORITY.STOP" = false
  /\ is_the_message_prioritary
       (mkMessage "S" "MESSAGE_TYPE_PRIORITY.STOP" 1 "" "")
       "MESSAGE_TYPE_PRIORITY.STATUS" = true.
Proof.
  destruct (@is_the_message_prioritary_order arrival_order
              (mkMessage "S" "MESSAGE_TYPE_PRIORITY.STOP" 1 "" "")
              (mkMessage "S" "MESSAGE_TYPE_PRIORITY.REPORT" 1 "" "")
              "MESSAGE_TYPE_PRIORITY.STATUS")
    as (_ & H1 & H2).
  split; [exact (H1 eq_refl) | exact (H2 eq_refl eq_refl)].
Defined.
